(** * eci_to_ecef.py: ECI to ECEF conversion

    A shallow embedding of [eci_to_ecef.py] and the proofs of its
    specification.

    Number model.  Python [int] values are [Z].  Python [float] values are
    read as real numbers ([R]): every float literal denotes the decimal
    fraction that is written in the source, and [+ - * / **] are the exact
    operations.  [math.floor] is the integer floor, the float operator [%]
    is the floored remainder (the result takes the sign of the divisor),
    [math.pi] is [PI], and [math.cos]/[math.sin] are [cos]/[sin].

    Module [Binary64] gives [ymdhms_to_jd] a second time, on IEEE 754
    binary64 numbers with round-to-nearest-even, as CPython executes it; it
    is used to evaluate the two dates of the specification bit for bit, and
    every date from 1970 to 2050 at noon and at midnight.

    Module [Calendar] holds the Gregorian calendar (leap years, month
    lengths, order of dates) against which [ymdhms_to_jd] is checked. *)

From Stdlib Require Import ZArith Reals Lra Lia List String.
From Stdlib Require PrimFloat SpecFloat FloatOps QArith.
Import ListNotations.

Open Scope R_scope.

(** ** Python primitives used by the script *)

Module Py.

(** [math.floor(x)]: the largest integer not above [x], as a Python [int]. *)
Definition floor (x : R) : Z := Zfloor x.

(** [x % y] on floats: [x - floor(x / y) * y]. *)
Definition float_mod (x y : R) : R := x - IZR (floor (x / y)) * y.

End Py.

(** ** The helper functions of the script *)

(** [ymdhms_to_jd], lines 31-45.  The rebinding of [year] and [month] in
    the [if] is a shadowing [let]. *)
Definition ymdhms_to_jd (year month day hour minute : Z) (second : R) : R :=
  let '(year, month) :=
    if (month <=? 2)%Z then ((year - 1)%Z, (month + 12)%Z) else (year, month) in
  let A := Py.floor (IZR year / 100) in
  let B := (2 - A + Py.floor (IZR A / 4))%Z in
  let C := Py.floor (365.25 * IZR (year + 4716)) in
  let D := Py.floor (30.6001 * IZR (month + 1)) in
  let jd := IZR (C + D + day + B) - 1524.5 in
  let day_fraction := (IZR hour + IZR minute / 60 + second / 3600) / 24 in
  let jd_frac := jd + day_fraction in
  jd_frac.

(** [jd_to_gmst], lines 48-54, in three pieces: the polynomial of line 50,
    the reduction of line 51 and the guarded return of lines 52-54. *)
Definition GMST_sec (jd : R) : R :=
  let T := (jd - 2451545.0) / 36525.0 in
  67310.54841 + (876600.0 * 3600.0 + 8640184.812866) * T
  + 0.093104 * T ^ 2 - 6.2e-6 * T ^ 3.

Definition GMST_deg (jd : R) : R := Py.float_mod (GMST_sec jd / 240.0) 360.0.

Definition jd_to_gmst (jd : R) : R :=
  let GMST_deg := GMST_deg jd in
  if Rlt_dec GMST_deg 0 then GMST_deg + 360.0 else GMST_deg.

(** [degrees_to_radians], lines 57-58. *)
Definition degrees_to_radians (degrees : R) : R := degrees * PI / 180.0.

(** [eci_to_ecef], lines 61-73. *)
Definition eci_to_ecef (jd eci_x eci_y eci_z : R) : R * R * R :=
  let gmst := jd_to_gmst jd in
  let gmst_rad := degrees_to_radians gmst in
  let cos_gmst := cos gmst_rad in
  let sin_gmst := sin gmst_rad in
  let ecef_x := cos_gmst * eci_x + sin_gmst * eci_y in
  let ecef_y := - sin_gmst * eci_x + cos_gmst * eci_y in
  let ecef_z := eci_z in
  (ecef_x, ecef_y, ecef_z).

(** The statements of lines 63-73 for a given value of [gmst]: the part of
    [eci_to_ecef] that follows the call of [jd_to_gmst]. *)
Definition rotation_step (gmst eci_x eci_y eci_z : R) : R * R * R :=
  let gmst_rad := degrees_to_radians gmst in
  let cos_gmst := cos gmst_rad in
  let sin_gmst := sin gmst_rad in
  let ecef_x := cos_gmst * eci_x + sin_gmst * eci_y in
  let ecef_y := - sin_gmst * eci_x + cos_gmst * eci_y in
  let ecef_z := eci_z in
  (ecef_x, ecef_y, ecef_z).


(** ** [ymdhms_to_jd] on binary64 floats *)

Module Binary64.
Import PrimFloat SpecFloat FloatOps.

(** [float(n)] for a Python [int]: the nearest binary64 number, ties to
    even; [None] stands for [OverflowError]. *)
Definition float_of_int (n : Z) : option float :=
  let f := SF2Prim (binary_normalize prec emax n 0 false) in
  if is_infinity f then None else Some f.

(** An integer as an unrounded mantissa with exponent 0. *)
Definition exact (n : Z) : spec_float :=
  match n with
  | Z0 => S754_zero false
  | Zpos p => S754_finite false p 0
  | Zneg p => S754_finite true p 0
  end.

(** [a / b] on two Python [int]s: the quotient rounded once; [None] stands
    for [ZeroDivisionError] and [OverflowError]. *)
Definition truediv (a b : Z) : option float :=
  if (b =? 0)%Z then None
  else
    let f := SF2Prim (SFdiv prec emax (exact a) (exact b)) in
    if is_infinity f then None else Some f.

(** [math.floor(x)]; [None] stands for the error raised on an infinity or
    a NaN.  A shift by a negative count rounds towards minus infinity. *)
Definition floor (x : float) : option Z :=
  match Prim2SF x with
  | S754_zero _ => Some 0%Z
  | S754_finite s m e => Some (Z.shiftl (if s then Zneg m else Zpos m) e)
  | S754_infinity _ | S754_nan => None
  end.

Notation "x <- m ;; k" :=
  (match m with Some x => k | None => None end)
  (at level 61, m at next level, right associativity).

(** Lines 31-45.  An [int] operand of a float operation is converted with
    [float_of_int] first. *)
#[warnings="-inexact-float"]
Definition ymdhms_to_jd (year month day hour minute : Z) (second : float)
  : option float :=
  let '(year, month) :=
    if (month <=? 2)%Z then ((year - 1)%Z, (month + 12)%Z) else (year, month) in
  year_100 <- truediv year 100 ;;
  A <- floor year_100 ;;
  A_4 <- truediv A 4 ;;
  floor_A_4 <- floor A_4 ;;
  let B := (2 - A + floor_A_4)%Z in
  year_4716 <- float_of_int (year + 4716) ;;
  C <- floor (365.25 * year_4716)%float ;;
  month_1 <- float_of_int (month + 1) ;;
  D <- floor (30.6001 * month_1)%float ;;
  days <- float_of_int (C + D + day + B) ;;
  let jd := (days - 1524.5)%float in
  hour_f <- float_of_int hour ;;
  minute_60 <- truediv minute 60 ;;
  let day_fraction := ((hour_f + minute_60 + second / 3600) / 24)%float in
  let jd_frac := (jd + day_fraction)%float in
  Some jd_frac.

End Binary64.

(** ** The rest of the script on binary64 floats *)

Module Float64.
Import PrimFloat SpecFloat FloatOps.
Local Open Scope bool_scope.

Notation "x <- m ;; k" :=
  (match m with Some x => k | None => None end)
  (at level 61, m at next level, right associativity).

(** Lines 32-41 up to the integer sum [C + D + day + B], as in
    [Binary64.ymdhms_to_jd]. *)
#[warnings="-inexact-float"]
Definition day_sum (year month day : Z) : option Z :=
  let '(year, month) :=
    if (month <=? 2)%Z then ((year - 1)%Z, (month + 12)%Z) else (year, month) in
  year_100 <- Binary64.truediv year 100 ;;
  A <- Binary64.floor year_100 ;;
  A_4 <- Binary64.truediv A 4 ;;
  floor_A_4 <- Binary64.floor A_4 ;;
  let B := (2 - A + floor_A_4)%Z in
  year_4716 <- Binary64.float_of_int (year + 4716) ;;
  C <- Binary64.floor (365.25 * year_4716)%float ;;
  month_1 <- Binary64.float_of_int (month + 1) ;;
  D <- Binary64.floor (30.6001 * month_1)%float ;;
  Some (C + D + day + B)%Z.

(** The rest of lines 41-43 on that sum, as in [Binary64.ymdhms_to_jd]. *)
Definition jd_of_sum (sum hour minute : Z) (second : float) : option float :=
  days <- Binary64.float_of_int sum ;;
  let jd := (days - 1524.5)%float in
  hour_f <- Binary64.float_of_int hour ;;
  minute_60 <- Binary64.truediv minute 60 ;;
  let day_fraction := ((hour_f + minute_60 + second / 3600) / 24)%float in
  let jd_frac := (jd + day_fraction)%float in
  Some jd_frac.

(** C [fmod(x, y)]: the exact remainder of the division that truncates,
    with the sign of [x]. *)
Definition fmod (x y : float) : float :=
  match Prim2SF x, Prim2SF y with
  | S754_nan, _ | _, S754_nan => nan
  | S754_infinity _, _ | _, S754_zero _ => nan
  | S754_zero _, _ | S754_finite _ _ _, S754_infinity _ => x
  | S754_finite sx mx ex, S754_finite _ my ey =>
      let e := Z.min ex ey in
      let r := (Z.shiftl (Zpos mx) (ex - e)
                mod Z.shiftl (Zpos my) (ey - e))%Z in
      SF2Prim (binary_normalize prec emax (if sx then (- r)%Z else r) e sx)
  end.

(** [vx % wx] on floats, CPython's [float_rem]: [fmod], then the divisor
    is added when the signs differ; [None] stands for
    [ZeroDivisionError]. *)
Definition float_rem (vx wx : float) : option float :=
  if (wx =? 0)%float then None
  else
    let rem := fmod vx wx in
    if (rem =? 0)%float then Some (if get_sign wx then neg_zero else zero)
    else if xorb (wx <? 0)%float (rem <? 0)%float then Some (rem + wx)%float
    else Some rem.

(** [iv ** n] for a float and a positive [int] literal, CPython's
    [float_pow] around the C function [pow]; [None] stands for
    [OverflowError]. *)
Definition float_pow (libm_pow : float -> float -> float)
           (iv : float) (n : positive) : option float :=
  let iw := SF2Prim (binary_normalize prec emax (Zpos n) 0 false) in
  let iw_is_odd := Z.odd (Zpos n) in
  if is_nan iv then Some iv
  else if is_infinity iv then Some (if iw_is_odd then iv else abs iv)
  else if (iv =? 0)%float then Some (if iw_is_odd then iv else zero)
  else
    let negate_result := (iv <? 0)%float && iw_is_odd in
    let iv := if (iv <? 0)%float then (- iv)%float else iv in
    if (iv =? 1)%float then Some (if negate_result then (- one)%float else one)
    else
      let ix := libm_pow iv iw in
      if is_infinity ix then None
      else Some (if negate_result then (- ix)%float else ix).

(** [math.cos] and [math.sin] around the C function, CPython's [math_1];
    [None] stands for [ValueError]. *)
Definition math_1 (func : float -> float) (x : float) : option float :=
  let r := func x in
  if is_nan r && negb (is_nan x) then None
  else if is_infinity r && is_finite x then None
  else Some r.

(** [math.pi]. *)
Definition math_pi : float := 0x1.921fb54442d18p+1%float.

Section Libm.

(** The functions [pow], [cos] and [sin] of the C library. *)
Variable libm_pow : float -> float -> float.
Variable libm_cos libm_sin : float -> float.

(** [jd_to_gmst], lines 48-54. *)
#[warnings="-inexact-float"]
Definition jd_to_gmst (jd : float) : option float :=
  let T := ((jd - 2451545.0) / 36525.0)%float in
  T_2 <- float_pow libm_pow T 2 ;;
  T_3 <- float_pow libm_pow T 3 ;;
  let GMST_sec :=
    (67310.54841 + (876600.0 * 3600.0 + 8640184.812866) * T
     + 0.093104 * T_2 - 6.2e-6 * T_3)%float in
  GMST_deg <- float_rem (GMST_sec / 240.0)%float 360.0%float ;;
  Some (if (GMST_deg <? 0)%float then (GMST_deg + 360.0)%float else GMST_deg).

(** [degrees_to_radians], lines 57-58. *)
Definition degrees_to_radians (degrees : float) : float :=
  (degrees * math_pi / 180.0)%float.

(** [eci_to_ecef], lines 61-73. *)
Definition eci_to_ecef (jd eci_x eci_y eci_z : float)
  : option (float * float * float) :=
  gmst <- jd_to_gmst jd ;;
  let gmst_rad := degrees_to_radians gmst in
  cos_gmst <- math_1 libm_cos gmst_rad ;;
  sin_gmst <- math_1 libm_sin gmst_rad ;;
  let ecef_x := (cos_gmst * eci_x + sin_gmst * eci_y)%float in
  let ecef_y := (- sin_gmst * eci_x + cos_gmst * eci_y)%float in
  let ecef_z := eci_z in
  Some (ecef_x, ecef_y, ecef_z).

End Libm.

(** The exact value of a finite float, as a rational number. *)
Definition to_Q (x : float) : QArith_base.Q :=
  match Prim2SF x with
  | S754_finite s m e =>
      let n := if s then Zneg m else Zpos m in
      match e with
      | Zneg p => QArith_base.Qmake n (2 ^ p)
      | _ => QArith_base.Qmake (n * 2 ^ e) 1
      end
  | _ => QArith_base.Qmake 0 1
  end.

(** The sum of the squares of three floats, exactly. *)
Definition norm_squared (v : float * float * float) : QArith_base.Q :=
  let '(x, y, z) := v in
  QArith_base.Qplus
    (QArith_base.Qplus (QArith_base.Qmult (to_Q x) (to_Q x))
                       (QArith_base.Qmult (to_Q y) (to_Q y)))
    (QArith_base.Qmult (to_Q z) (to_Q z)).

(** The C library at the one argument that jd = 2451545.0 reaches,
    4.894961212823059: the floats nearest to its cosine and sine.  The
    function [pow] is not called for that date. *)
Definition libm_cos_j2000 (x : float) : float :=
  if (x =? 0x1.39470b6510ddcp+2)%float
  then 0x1.73d58c20622c8p-3%float else nan.

Definition libm_sin_j2000 (x : float) : float :=
  if (x =? 0x1.39470b6510ddcp+2)%float
  then (- 0x1.f77d931685dd7p-1)%float else nan.

Definition libm_pow_none (x y : float) : float := nan.

End Float64.

(** ** The script body, lines 75-110 *)

Module Script.

(** What [print] writes on standard output: a string, or a float. *)
Inductive printed : Type :=
| PStr (s : string)
| PFloat (x : R).

(** The two calls of lines 102 and 105. *)
Inductive func : Type := F_ymdhms_to_jd | F_eci_to_ecef.

(** What a run of the script does, in order. *)
Inductive event : Type :=
| Print (p : printed)
| Call (f : func).

(** Exceptions that reach the top level. *)
Inductive exn : Type :=
| SystemExit (code : option Z)
| ValueError
| IndexError.

(** A computation that logs events and either raises or returns. *)
Definition M (A : Type) : Type := (list event * (exn + A))%type.

Definition ret {A} (a : A) : M A := ([], inr a).

Definition bind {A B} (m : M A) (k : A -> M B) : M B :=
  match m with
  | (t, inl e) => (t, inl e)
  | (t, inr a) => let '(t', r) := k a in (t ++ t', r)
  end.

Definition raise {A} (e : exn) : M A := ([], inl e).

Definition emit (e : event) : M unit := ([e], inr tt).

Notation "x <- m ;; k" := (bind m (fun x => k))
  (at level 61, m at next level, right associativity).
Notation "m ;;; k" := (bind m (fun _ => k))
  (at level 61, right associativity).

(** [print(p)]. *)
Definition print (p : printed) : M unit := emit (Print p).

(** [exit()] of the [site] module: raises [SystemExit] with its argument,
    [None] when called without one. *)
Definition exit {A} (code : option Z) : M A := raise (SystemExit code).

(** [sys.argv[i]]. *)
Definition argv_at (argv : list string) (i : nat) : M string :=
  match nth_error argv i with
  | Some s => ret s
  | None => raise IndexError
  end.

(** A conversion that raises [ValueError] on a string it does not accept. *)
Definition convert {A} (conv : string -> option A) (s : string) : M A :=
  match conv s with
  | Some a => ret a
  | None => raise ValueError
  end.

(** The exit status of the interpreter: 0 when the script runs to its end
    or raises [SystemExit] with [None], the integer code of a [SystemExit],
    1 for an exception that nobody catches. *)
Definition exit_status {A} (r : exn + A) : Z :=
  match r with
  | inr _ => 0
  | inl (SystemExit None) => 0
  | inl (SystemExit (Some n)) => n
  | inl ValueError => 1
  | inl IndexError => 1
  end.

Definition usage : string :=
  "Usage: python3 eci_to_ecef.py year month day hour minute second eci_x_km eci_y_km eci_z_km".

Section Main.

(** The built-in conversions [int(s)] and [float(s)] of a string; [None]
    stands for [ValueError]. *)
Variable int : string -> option Z.
Variable float : string -> option R.

(** Lines 87-99.  The initial values of lines 76-84 are overwritten on the
    first branch and never read on the second. *)
Definition parse (argv : list string)
  : M (Z * Z * Z * Z * Z * R * R * R * R) :=
  if (List.length argv =? 10)%nat then
    year <- (s <- argv_at argv 1 ;; convert int s) ;;
    month <- (s <- argv_at argv 2 ;; convert int s) ;;
    day <- (s <- argv_at argv 3 ;; convert int s) ;;
    hour <- (s <- argv_at argv 4 ;; convert int s) ;;
    minute <- (s <- argv_at argv 5 ;; convert int s) ;;
    second <- (s <- argv_at argv 6 ;; convert float s) ;;
    eci_x_km <- (s <- argv_at argv 7 ;; convert float s) ;;
    eci_y_km <- (s <- argv_at argv 8 ;; convert float s) ;;
    eci_z_km <- (s <- argv_at argv 9 ;; convert float s) ;;
    ret (year, month, day, hour, minute, second, eci_x_km, eci_y_km, eci_z_km)
  else
    print (PStr usage) ;;;
    exit None.

(** Lines 101-110. *)
Definition convert_and_print (args : Z * Z * Z * Z * Z * R * R * R * R)
  : M unit :=
  let '(year, month, day, hour, minute, second,
        eci_x_km, eci_y_km, eci_z_km) := args in
  emit (Call F_ymdhms_to_jd) ;;;
  let jd := ymdhms_to_jd year month day hour minute second in
  emit (Call F_eci_to_ecef) ;;;
  let '(ecef_x_km, ecef_y_km, ecef_z_km) :=
    eci_to_ecef jd eci_x_km eci_y_km eci_z_km in
  print (PFloat ecef_x_km) ;;;
  print (PFloat ecef_y_km) ;;;
  print (PFloat ecef_z_km).

(** The whole script, run with [sys.argv = argv]. *)
Definition main (argv : list string) : M unit :=
  args <- parse argv ;;
  convert_and_print args.

End Main.

(** The events of a run and its exit status. *)
Definition events {A} (m : M A) : list event := fst m.
Definition status {A} (m : M A) : Z := exit_status (snd m).

(** A run prints a coordinate when it prints a float. *)
Definition prints_coordinate (e : event) : bool :=
  match e with
  | Print (PFloat _) => true
  | _ => false
  end.

(** A run computes when it calls one of the two conversion functions. *)
Definition computes (e : event) : bool :=
  match e with
  | Call _ => true
  | _ => false
  end.

(** Sample command lines: eight and ten arguments after the script name. *)
Definition argv8 : list string :=
  ["eci_to_ecef.py"; "2000"; "1"; "1"; "12"; "0"; "0"; "7000"; "0"]%string.

Definition argv10 : list string :=
  ["eci_to_ecef.py"; "2000"; "1"; "1"; "12"; "0"; "0"; "7000"; "0"; "0";
   "0"]%string.

(** Conversions that reject every string. *)
Definition no_int (_ : string) : option Z := None.
Definition no_float (_ : string) : option R := None.

End Script.

(** ** Sample conversions and a sample command line of nine arguments *)

Module ScriptSamples.

(** The value that a table gives to a string. *)
Definition lookup {A} (table : list (string * A)) (s : string) : option A :=
  match find (fun entry => String.eqb (fst entry) s) table with
  | Some entry => Some (snd entry)
  | None => None
  end.

(** [int] and [float] on the strings of [argv9]; every other string is
    rejected. *)
Definition sample_int : string -> option Z :=
  lookup [("2000", 2000); ("1", 1); ("12", 12); ("0", 0)]%string%Z.

Definition sample_float : string -> option R :=
  lookup [("0"%string, 0); ("7000"%string, 7000)].


(** The same command line with a month that is not a number. *)
Definition argv9_bad_month : list string :=
  ["eci_to_ecef.py"; "2000"; "Jan"; "1"; "12"; "0"; "0"; "7000"; "0";
   "0"]%string.

End ScriptSamples.

(** ** The Gregorian calendar, for the statements about [ymdhms_to_jd] *)

Module Calendar.

Local Open Scope Z_scope.
Local Open Scope bool_scope.

(** The day count of lines 32-41 without its offset 1524.5, with each
    [math.floor] of a decimal product written as an integer quotient. *)
Definition day_count (year month day : Z) : Z :=
  let year' := if month <=? 2 then year - 1 else year in
  let month' := if month <=? 2 then month + 12 else month in
  let A := year' / 100 in
  1461 * (year' + 4716) / 4 + 306001 * (month' + 1) / 10000
  + day + (2 - A + A / 4).






End Calendar.

(** ** Checking the binary64 run against the day count *)

Module Binary64Check.
Import PrimFloat.

(** The integers [lo], [lo + 1], ..., [lo + n - 1]. *)
Definition zrange (lo : Z) (n : nat) : list Z :=
  map (fun i => (lo + Z.of_nat i)%Z) (seq 0 n).

(** The binary64 run at 12:00:00 and at 00:00:00 of one date compares equal
    ([==]) to [float(n)] and to [float(n) - 0.5], for [n] the day count
    minus 1524. *)
Definition noon_midnight_exact (year month day : Z) : bool :=
  match Binary64.float_of_int (Calendar.day_count year month day - 1524),
        Binary64.ymdhms_to_jd year month day 12 0 0%float,
        Binary64.ymdhms_to_jd year month day 0 0 0%float with
  | Some n, Some jd12, Some jd0 =>
      (jd12 =? n)%float && (jd0 =? n - 0.5)%float
  | _, _, _ => false
  end.

(** The check on every day number 1..31 of every month of [n] years. *)
Definition years_exact (year0 : Z) (n : nat) : bool :=
  forallb (fun year =>
    forallb (fun month =>
      forallb (fun day => noon_midnight_exact year month day)
              (zrange 1 31))
            (zrange 1 12))
          (zrange year0 n).

End Binary64Check.

(** ** Float operations as exact operations with a relative error *)

Module Rounded.

(** The unit roundoff of binary64, [2^-53]. *)
Definition u : R := / 2 ^ 53.

(** One correctly rounded float operation that neither overflows nor
    underflows: the result is within the relative error [u] of the exact
    value. *)
Definition rnd (exact result : R) : Prop :=
  Rabs (result - exact) <= u * Rabs exact.

(** A result of [math.cos] or [math.sin]: within [2 * u = 2^-52] of the
    exact value. *)
Definition libm (exact result : R) : Prop :=
  Rabs (result - exact) <= 2 * u.

(** Lines 41 and 43 on the integer sum [C + D + day + B] and the day
    fraction: the conversion of the sum, the subtraction and the
    addition. *)
Definition jd_lines_41_43 (sum : Z) (day_fraction jd_frac : R) : Prop :=
  exists days jd : R,
    rnd (IZR sum) days
    /\ rnd (days - 1524.5) jd
    /\ rnd (jd + day_fraction) jd_frac.

(** Lines 66-71 for the angle [gmst_rad]: the two library calls, four
    products and two sums. *)
Definition rotation_lines_66_71 (gmst_rad eci_x eci_y eci_z : R)
           (ecef : R * R * R) : Prop :=
  exists cos_gmst sin_gmst p1 p2 p3 p4 : R,
    libm (cos gmst_rad) cos_gmst /\ libm (sin gmst_rad) sin_gmst
    /\ rnd (cos_gmst * eci_x) p1 /\ rnd (sin_gmst * eci_y) p2
    /\ rnd (p1 + p2) (fst (fst ecef))
    /\ rnd (- sin_gmst * eci_x) p3 /\ rnd (cos_gmst * eci_y) p4
    /\ rnd (p3 + p4) (snd (fst ecef))
    /\ snd ecef = eci_z.

End Rounded.

(** ** Checking the floors of the binary64 run against the quotients *)

Module Float64Check.
Import PrimFloat.
Local Open Scope bool_scope.

(** For one adjusted year, the three floors of lines 36-38 are the integer
    quotients. *)
Definition year_floors_exact (year : Z) : bool :=
  match Binary64.truediv year 100 with
  | Some year_100 =>
      match Binary64.floor year_100 with
      | Some A =>
          (A =? year / 100)%Z
          && match Binary64.truediv A 4 with
             | Some A_4 =>
                 match Binary64.floor A_4 with
                 | Some floor_A_4 => (floor_A_4 =? A / 4)%Z
                 | None => false
                 end
             | None => false
             end
          && match Binary64.float_of_int (year + 4716) with
             | Some year_4716 =>
                 match Binary64.floor (365.25 * year_4716)%float with
                 | Some C => (C =? 1461 * (year + 4716) / 4)%Z
                 | None => false
                 end
             | None => false
             end
      | None => false
      end
  | None => false
  end.

(** For one adjusted month, the floor of line 39 is the integer
    quotient. *)
#[warnings="-inexact-float"]
Definition month_floor_exact (month : Z) : bool :=
  match Binary64.float_of_int (month + 1) with
  | Some month_1 =>
      match Binary64.floor (30.6001 * month_1)%float with
      | Some D => (D =? 306001 * (month + 1) / 10000)%Z
      | None => false
      end
  | None => false
  end.

(** The checks on the adjusted years [0 .. 9999] and months [3 .. 14]. *)
Definition floors_exact : bool :=
  forallb year_floors_exact (Binary64Check.zrange 0 (Z.to_nat 10000))
  && forallb month_floor_exact (Binary64Check.zrange 3 12).

End Float64Check.


(** ** Floors of the decimal products *)

Lemma floor_eq (z : Z) (x : R) : IZR z <= x < IZR z + 1 -> Py.floor x = z.
Proof. apply Zfloor_eq. Qed.

(** The body of [ymdhms_to_jd] with the January/February adjustment
    written as conditionals on the two rebound variables. *)
Lemma ymdhms_to_jd_unfold (year month day hour minute : Z) (second : R) :
  let year' := if (month <=? 2)%Z then (year - 1)%Z else year in
  let month' := if (month <=? 2)%Z then (month + 12)%Z else month in
  let A := Py.floor (IZR year' / 100) in
  ymdhms_to_jd year month day hour minute second =
  IZR (Py.floor (365.25 * IZR (year' + 4716))
       + Py.floor (30.6001 * IZR (month' + 1))
       + day + (2 - A + Py.floor (IZR A / 4)))
  - 1524.5 + (IZR hour + IZR minute / 60 + second / 3600) / 24.
Proof.
  unfold ymdhms_to_jd. destruct (month <=? 2)%Z; reflexivity.
Qed.

(** Evaluation of [ymdhms_to_jd] once the four floors are known. *)
Lemma ymdhms_to_jd_calc (year month day hour minute : Z) (second : R)
      (year' month' A A4 C D : Z) :
  (if (month <=? 2)%Z then (year - 1)%Z else year) = year' ->
  (if (month <=? 2)%Z then (month + 12)%Z else month) = month' ->
  IZR A <= IZR year' / 100 < IZR A + 1 ->
  IZR A4 <= IZR A / 4 < IZR A4 + 1 ->
  IZR C <= 365.25 * IZR (year' + 4716) < IZR C + 1 ->
  IZR D <= 30.6001 * IZR (month' + 1) < IZR D + 1 ->
  ymdhms_to_jd year month day hour minute second =
  IZR (C + D + day + (2 - A + A4)) - 1524.5
  + (IZR hour + IZR minute / 60 + second / 3600) / 24.
Proof.
  intros Hy Hm HA HA4 HC HD.
  rewrite ymdhms_to_jd_unfold. cbv zeta. rewrite Hy, Hm.
  rewrite (floor_eq A _ HA), (floor_eq A4 _ HA4).
  rewrite (floor_eq C _ HC), (floor_eq D _ HD).
  reflexivity.
Qed.

(** C1. [ymdhms_to_jd(2000, 1, 1, 12, 0, 0)] is 2451545.0, the Julian Date
    of the J2000.0 epoch. *)
Theorem ymdhms_to_jd_j2000 :
  ymdhms_to_jd 2000 1 1 12 0 0 = 2451545.0.
Proof.
  rewrite (ymdhms_to_jd_calc 2000 1 1 12 0 0 1999 13 19 4 2452653 428);
    try reflexivity; try (simpl; lra).
Qed.

(** ** The two dates of the specification on binary64 floats *)

Module Binary64Facts.
Import PrimFloat.

(** The call of C1 returns the float 2451545.0. *)
Lemma binary64_j2000 :
  Binary64.ymdhms_to_jd 2000 1 1 12 0 0%float = Some 2451545%float.
Proof. vm_compute. reflexivity. Qed.

(** The call of C8 returns the float 2460019.0. *)
Lemma binary64_20230315 :
  Binary64.ymdhms_to_jd 2023 3 15 12 0 0%float = Some 2460019%float.
Proof. vm_compute. reflexivity. Qed.

(** Line 43 rounds its sum.  From 6771-07-06 to 6771-07-07 the Julian Date
    passes 4194304 = 2^22, where the spacing of binary64 numbers doubles:
    at 12:07:12.345 the value for the second day and the value for the
    first day plus 1.0 are different floats. *)
#[warnings="-inexact-float"]
Lemma binary64_next_day_rounding :
  match Binary64.ymdhms_to_jd 6771 7 6 12 7 12.345%float,
        Binary64.ymdhms_to_jd 6771 7 7 12 7 12.345%float with
  | Some jd1, Some jd2 =>
      (4194303 <? jd1)%float = true /\ (jd1 <? 4194304)%float = true
      /\ (4194304 <? jd2)%float = true
      /\ (jd2 =? jd1 + 1)%float = false
  | _, _ => False
  end.
Proof. vm_compute. repeat split. Qed.

End Binary64Facts.

(** ** The floored remainder *)

(** With a positive divisor the float [%] lands in [[0, y)]. *)
Lemma float_mod_range (x y : R) : 0 < y -> 0 <= Py.float_mod x y < y.
Proof.
  intros Hy. unfold Py.float_mod, Py.floor.
  destruct (Zfloor_bound (x / y)) as [Hlo Hhi].
  assert (Hx : x = x / y * y) by (field; lra).
  split.
  - apply (Rmult_le_compat_r y) in Hlo; lra.
  - apply (Rmult_lt_compat_r y) in Hhi; lra.
Qed.

(** A value already in [[0, y)] is its own remainder. *)
Lemma float_mod_small (x y : R) : 0 <= x < y -> Py.float_mod x y = x.
Proof.
  intros [Hlo Hhi]. unfold Py.float_mod.
  assert (Hy : 0 < y) by lra.
  rewrite (floor_eq 0 (x / y)); [lra|].
  split.
  - apply Rmult_le_reg_r with y; [lra|].
    replace (x / y * y) with x by (field; lra). lra.
  - apply Rmult_lt_reg_r with y; [lra|].
    replace (x / y * y) with x by (field; lra). lra.
Qed.


Lemma GMST_deg_range (jd : R) : 0 <= GMST_deg jd < 360.
Proof.
  unfold GMST_deg.
  replace 360.0 with 360 by lra.
  apply float_mod_range. lra.
Qed.

(** The test of line 52 fails: [jd_to_gmst] returns the value of line 51. *)
Lemma jd_to_gmst_GMST_deg (jd : R) : jd_to_gmst jd = GMST_deg jd.
Proof.
  unfold jd_to_gmst. cbv zeta.
  destruct (Rlt_dec (GMST_deg jd) 0) as [Hneg|_]; [|reflexivity].
  pose proof (GMST_deg_range jd). lra.
Qed.

(** C3. For every Julian Date [jd], [jd_to_gmst jd] lies in [[0, 360)]. *)
Theorem jd_to_gmst_range (jd : R) : 0 <= jd_to_gmst jd < 360.
Proof.
  rewrite jd_to_gmst_GMST_deg. apply GMST_deg_range.
Qed.

(** C9. For every Julian Date the value [(GMST_sec / 240.0) % 360.0] of
    line 51 is non-negative, so the test [GMST_deg < 0] of line 52 is false,
    the branch that adds 360 is not taken, and [jd_to_gmst] returns the
    value of line 51 as it is. *)
Theorem gmst_negative_branch_dead (jd : R) :
  0 <= Py.float_mod (GMST_sec jd / 240.0) 360.0
  /\ ~ (GMST_deg jd < 0)
  /\ (if Rlt_dec (GMST_deg jd) 0 then false else true) = true
  /\ jd_to_gmst jd = Py.float_mod (GMST_sec jd / 240.0) 360.0.
Proof.
  pose proof (GMST_deg_range jd) as H.
  repeat split.
  - apply H.
  - lra.
  - destruct (Rlt_dec (GMST_deg jd) 0); [lra|reflexivity].
  - apply jd_to_gmst_GMST_deg.
Qed.

(** At the epoch the polynomial reduces to its constant term. *)
Lemma GMST_sec_j2000 : GMST_sec 2451545.0 = 67310.54841.
Proof.
  unfold GMST_sec. cbv zeta.
  replace ((2451545.0 - 2451545.0) / 36525.0) with 0 by lra.
  lra.
Qed.

Lemma jd_to_gmst_j2000_value : jd_to_gmst 2451545.0 = 280.460618375.
Proof.
  rewrite jd_to_gmst_GMST_deg. unfold GMST_deg. rewrite GMST_sec_j2000.
  rewrite float_mod_small; lra.
Qed.

(** C4. [jd_to_gmst(2451545.0)] is within 1e-6 of 280.46061837 degrees. *)
Theorem jd_to_gmst_j2000 :
  Rabs (jd_to_gmst 2451545.0 - 280.46061837) <= 1e-6.
Proof.
  rewrite jd_to_gmst_j2000_value.
  apply Rabs_le. lra.
Qed.

(** ** The rotation *)





(** C6. The third component of [eci_to_ecef jd x y z] is [z], and the
    first two components do not depend on [z]: the rotation acts on the
    x and y components only. *)
Theorem eci_to_ecef_z (jd x y z : R) :
  snd (eci_to_ecef jd x y z) = z
  /\ forall z' : R,
       fst (eci_to_ecef jd x y z') = fst (eci_to_ecef jd x y z).
Proof. split; reflexivity. Qed.

(** C7. At the angle 0 the rotation step of [eci_to_ecef] returns the
    vector it is given. *)
Theorem rotation_zero_angle (x y z : R) :
  rotation_step 0 x y z = (x, y, z).
Proof.
  unfold rotation_step, degrees_to_radians. cbv zeta.
  replace (0 * PI / 180.0) with 0 by lra.
  rewrite cos_0, sin_0.
  replace (1 * x + 0 * y) with x by ring.
  replace (- 0 * x + 1 * y) with y by ring.
  reflexivity.
Qed.

(** ** The worked example of 2023-03-15 12:00:00 *)





(** ** The day field *)


(** ** The argument count *)

Module ScriptFacts.
Import Script.

(** With nine arguments that convert, the script calls the two functions
    and prints the three coordinates. *)
Lemma main_nine_args (int : string -> option Z) (float : string -> option R)
      (a0 a1 a2 a3 a4 a5 a6 a7 a8 a9 : string)
      (year month day hour minute : Z) (second x y z : R) :
  int a1 = Some year -> int a2 = Some month -> int a3 = Some day ->
  int a4 = Some hour -> int a5 = Some minute -> float a6 = Some second ->
  float a7 = Some x -> float a8 = Some y -> float a9 = Some z ->
  main int float [a0; a1; a2; a3; a4; a5; a6; a7; a8; a9]
  = (let '(ex, ey, ez) :=
       eci_to_ecef (ymdhms_to_jd year month day hour minute second) x y z in
     [Call F_ymdhms_to_jd; Call F_eci_to_ecef;
      Print (PFloat ex); Print (PFloat ey); Print (PFloat ez)],
     inr tt).
Proof.
  intros H1 H2 H3 H4 H5 H6 H7 H8 H9.
  unfold main, parse, convert, argv_at. simpl.
  rewrite H1, H2, H3, H4, H5, H6, H7, H8, H9. reflexivity.
Qed.

(** A string that [int] rejects stops the run with [ValueError] before
    anything is computed or printed. *)
Lemma main_bad_year (int : string -> option Z) (float : string -> option R)
      (a0 a1 a2 a3 a4 a5 a6 a7 a8 a9 : string) :
  int a1 = None ->
  main int float [a0; a1; a2; a3; a4; a5; a6; a7; a8; a9]
  = ([], inl ValueError).
Proof.
  intros H1. unfold main, parse, convert, argv_at. simpl.
  rewrite H1. reflexivity.
Qed.

(** With a wrong argument count the run is the usage line followed by
    [exit()]. *)
Lemma main_wrong_argc (int : string -> option Z) (float : string -> option R)
      (argv : list string) :
  List.length argv <> 10%nat ->
  main int float argv = ([Print (PStr usage)], inl (SystemExit None)).
Proof.
  intros Hlen. unfold main, parse.
  destruct (Nat.eqb_spec (List.length argv) 10) as [Heq|_]; [contradiction|].
  reflexivity.
Qed.

(** C2, as stated, fails: with eight arguments the script prints the usage
    line and stops, but [exit()] gives the exit status 0. *)
Lemma usage_exit_status_zero :
  events (main no_int no_float argv8) = [Print (PStr usage)]
  /\ status (main no_int no_float argv8) = 0%Z
  /\ ~ (status (main no_int no_float argv8) <> 0%Z).
Proof.
  rewrite main_wrong_argc by (simpl; discriminate).
  repeat split. intros H. apply H. reflexivity.
Qed.

(** C2, amended. With any argument count other than nine the script prints
    the usage line and nothing else, calls neither conversion function,
    prints no coordinate, and stops at [exit()], whose exit status is 0. *)
Theorem wrong_argc_usage_exit
        (int : string -> option Z) (float : string -> option R)
        (argv : list string) :
  List.length argv <> 10%nat ->
  events (main int float argv) = [Print (PStr usage)]
  /\ existsb computes (events (main int float argv)) = false
  /\ existsb prints_coordinate (events (main int float argv)) = false
  /\ snd (main int float argv) = inl (SystemExit None)
  /\ status (main int float argv) = 0%Z.
Proof.
  intros Hlen. rewrite (main_wrong_argc int float argv Hlen).
  repeat split.
Qed.

Lemma wrong_argc_usage_exit_witness :
  List.length argv10 <> 10%nat
  /\ events (main no_int no_float argv10) = [Print (PStr usage)]
  /\ existsb computes (events (main no_int no_float argv10)) = false
  /\ existsb prints_coordinate (events (main no_int no_float argv10)) = false
  /\ snd (main no_int no_float argv10) = inl (SystemExit None)
  /\ status (main no_int no_float argv10) = 0%Z.
Proof.
  split; [simpl; lia|].
  apply (wrong_argc_usage_exit no_int no_float argv10). simpl. lia.
Defined.

End ScriptFacts.

(** ** [ymdhms_to_jd] and the Gregorian calendar *)

Module CalendarFacts.
Import Calendar.

(** The floor of a quotient of integers is the integer quotient. *)
Lemma floor_div (a b : Z) :
  (0 < b)%Z -> Py.floor (IZR a / IZR b) = (a / b)%Z.
Proof.
  intros Hb. apply floor_eq.
  pose proof (Z.div_mod a b ltac:(lia)) as Hdm.
  destruct (Z.mod_pos_bound a b Hb) as [Hr0 Hr1].
  assert (HB : 0 < IZR b) by (apply IZR_lt; lia).
  assert (Ha : IZR a = IZR b * IZR (a / b) + IZR (a mod b)).
  { rewrite <- mult_IZR, <- plus_IZR. f_equal. exact Hdm. }
  apply IZR_le in Hr0. apply IZR_lt in Hr1.
  split.
  - apply Rmult_le_reg_r with (IZR b); [lra|].
    replace (IZR a / IZR b * IZR b) with (IZR a) by (field; lra). lra.
  - apply Rmult_lt_reg_r with (IZR b); [lra|].
    replace (IZR a / IZR b * IZR b) with (IZR a) by (field; lra). lra.
Qed.

Lemma floor_365_25 (n : Z) : Py.floor (365.25 * IZR n) = (1461 * n / 4)%Z.
Proof.
  rewrite <- floor_div by lia. f_equal. rewrite mult_IZR. lra.
Qed.

Lemma floor_30_6001 (n : Z) :
  Py.floor (30.6001 * IZR n) = (306001 * n / 10000)%Z.
Proof.
  rewrite <- floor_div by lia. f_equal. rewrite mult_IZR. lra.
Qed.

(** The result as [day_count] minus 1524.5 plus the fraction of the day. *)
Lemma ymdhms_to_jd_quotients
      (year month day hour minute : Z) (second : R) :
  ymdhms_to_jd year month day hour minute second
  = IZR (day_count year month day) - 1524.5
    + (IZR hour + IZR minute / 60 + second / 3600) / 24.
Proof.
  rewrite ymdhms_to_jd_unfold. cbv zeta. unfold day_count.
  rewrite floor_365_25, floor_30_6001.
  replace 100 with (IZR 100) by reflexivity.
  replace (IZR (Py.floor (IZR (if (month <=? 2)%Z then (year - 1)%Z else year)
                          / IZR 100)) / 4)
    with (IZR (Py.floor (IZR (if (month <=? 2)%Z then (year - 1)%Z else year)
                         / IZR 100)) / IZR 4) by reflexivity.
  rewrite !floor_div by lia.
  reflexivity.
Qed.










(** X5. The month is not validated: months 13 and 14 are accepted and
    stand for January and February of the next year. *)
Theorem ymdhms_to_jd_month_13_14
        (year month day hour minute : Z) (second : R) :
  (1 <= month <= 2)%Z ->
  ymdhms_to_jd year (month + 12) day hour minute second
  = ymdhms_to_jd (year + 1) month day hour minute second.
Proof.
  intros Hm. rewrite !ymdhms_to_jd_unfold. cbv zeta.
  destruct (Z.leb_spec (month + 12) 2); [lia|].
  destruct (Z.leb_spec month 2); [|lia].
  replace (year + 1 - 1)%Z with year by lia. reflexivity.
Qed.

Lemma ymdhms_to_jd_month_13_14_witness :
  (1 <= 1 <= 2)%Z
  /\ ymdhms_to_jd 2023 (1 + 12) 1 12 0 0
     = ymdhms_to_jd (2023 + 1) 1 1 12 0 0.
Proof.
  split; [lia|].
  apply (ymdhms_to_jd_month_13_14 2023 1 1 12 0 0). lia.
Defined.

(** The time of day enters as seconds since midnight over 86400. *)
Lemma ymdhms_to_jd_time (year month day hour minute : Z) (second : R) :
  ymdhms_to_jd year month day hour minute second
  = ymdhms_to_jd year month day 0 0 0
    + (3600 * IZR hour + 60 * IZR minute + second) / 86400.
Proof.
  rewrite !ymdhms_to_jd_unfold. cbv zeta. lra.
Qed.












End CalendarFacts.

(** ** The normalized angle and the rotation *)












(** ** The sidereal rate *)

(** The polynomial of line 50 as a function of the Julian centuries since
    J2000.0. *)
Lemma GMST_sec_centuries (T : R) :
  GMST_sec (2451545 + 36525 * T)
  = 67310.54841 + 3164400184.812866 * T + 0.093104 * (T * T)
    - 6.2e-6 * (T * T * T).
Proof.
  unfold GMST_sec. cbv zeta.
  replace ((2451545 + 36525 * T - 2451545.0) / 36525.0) with T by lra.
  simpl pow. lra.
Qed.

(** X19. Within one Julian century of J2000.0, one more day adds between
    86636.55536 and 86636.55538 seconds to [GMST_sec]: a full turn of 86400
    seconds and a sidereal gain of 236.5554 seconds. *)
Theorem GMST_sec_daily_gain (jd : R) :
  2415020 <= jd <= 2488070 ->
  86636.55536 <= GMST_sec (jd + 1) - GMST_sec jd <= 86636.55538.
Proof.
  intros Hjd.
  set (T := (jd - 2451545) / 36525).
  assert (HT : -1 <= T <= 1) by (unfold T; lra).
  replace (GMST_sec (jd + 1))
    with (GMST_sec (2451545 + 36525 * (T + 1 / 36525)))
    by (f_equal; unfold T; lra).
  replace (GMST_sec jd) with (GMST_sec (2451545 + 36525 * T))
    by (f_equal; unfold T; lra).
  rewrite !GMST_sec_centuries.
  assert (H2 : 0 <= T * T <= 1) by nra.
  split; lra.
Qed.

Lemma GMST_sec_daily_gain_witness :
  2415020 <= 2451545 <= 2488070
  /\ 86636.55536 <= GMST_sec (2451545 + 1) - GMST_sec 2451545
     <= 86636.55538.
Proof.
  split; [lra|]. apply (GMST_sec_daily_gain 2451545). lra.
Defined.

(** ** The runs of the script *)

Module RunFacts.
Import Script ScriptSamples.


(** The run on ten strings, by cases on the nine conversions. *)
Lemma main_ten (int : string -> option Z) (float : string -> option R)
      (a0 a1 a2 a3 a4 a5 a6 a7 a8 a9 : string) :
  main int float [a0; a1; a2; a3; a4; a5; a6; a7; a8; a9]
  = match int a1, int a2, int a3, int a4, int a5,
          float a6, float a7, float a8, float a9 with
    | Some year, Some month, Some day, Some hour, Some minute,
      Some second, Some x, Some y, Some z =>
        (let '(ex, ey, ez) :=
           eci_to_ecef (ymdhms_to_jd year month day hour minute second)
                       x y z in
         [Call F_ymdhms_to_jd; Call F_eci_to_ecef;
          Print (PFloat ex); Print (PFloat ey); Print (PFloat ez)],
         inr tt)
    | _, _, _, _, _, _, _, _, _ => ([], inl ValueError)
    end.
Proof.
  unfold main, parse, convert, argv_at. simpl.
  destruct (int a1); [|reflexivity].
  destruct (int a2); [|reflexivity].
  destruct (int a3); [|reflexivity].
  destruct (int a4); [|reflexivity].
  destruct (int a5); [|reflexivity].
  destruct (float a6); [|reflexivity].
  destruct (float a7); [|reflexivity].
  destruct (float a8); [|reflexivity].
  destruct (float a9); reflexivity.
Qed.



(** X15. With nine arguments, one string that [int] or [float] rejects
    stops the run with [ValueError]: nothing is computed, nothing is
    printed, and the exit status is 1. *)
Theorem main_value_error (int : string -> option Z) (float : string -> option R)
        (a0 a1 a2 a3 a4 a5 a6 a7 a8 a9 : string) :
  int a1 = None \/ int a2 = None \/ int a3 = None \/ int a4 = None
  \/ int a5 = None \/ float a6 = None \/ float a7 = None
  \/ float a8 = None \/ float a9 = None ->
  main int float [a0; a1; a2; a3; a4; a5; a6; a7; a8; a9]
  = ([], inl ValueError)
  /\ status (main int float [a0; a1; a2; a3; a4; a5; a6; a7; a8; a9]) = 1%Z.
Proof.
  intros H. rewrite main_ten.
  destruct (int a1), (int a2), (int a3), (int a4), (int a5),
           (float a6), (float a7), (float a8), (float a9);
    try (split; reflexivity).
  exfalso. repeat (destruct H as [H|H]; [discriminate H|]). discriminate H.
Qed.

Lemma main_value_error_witness :
  sample_int "Jan" = None
  /\ main sample_int sample_float argv9_bad_month = ([], inl ValueError)
  /\ status (main sample_int sample_float argv9_bad_month) = 1%Z.
Proof.
  split; [reflexivity|].
  apply (main_value_error sample_int sample_float
           "eci_to_ecef.py" "2000" "Jan" "1" "12" "0" "0" "7000" "0" "0").
  right. left. reflexivity.
Defined.


End RunFacts.

(** ** The binary64 run at noon and at midnight, 1970 to 2050 *)

Module Binary64CheckFacts.
Import Calendar Binary64Check PrimFloat.

Lemma zrange_In (lo z : Z) (n : nat) :
  (lo <= z < lo + Z.of_nat n)%Z -> In z (zrange lo n).
Proof.
  intros H. unfold zrange. apply in_map_iff.
  exists (Z.to_nat (z - lo)). split; [lia|]. apply in_seq. lia.
Qed.

(** What [years_exact] checks, date by date. *)
Lemma years_exact_date (year0 : Z) (n : nat) (year month day : Z) :
  years_exact year0 n = true ->
  (year0 <= year < year0 + Z.of_nat n)%Z ->
  (1 <= month <= 12)%Z -> (1 <= day <= 31)%Z ->
  noon_midnight_exact year month day = true.
Proof.
  unfold years_exact. intros Hall Hy Hm Hd.
  rewrite forallb_forall in Hall.
  specialize (Hall year (zrange_In year0 year n Hy)).
  rewrite forallb_forall in Hall.
  specialize (Hall month (zrange_In 1 month 12 ltac:(lia))).
  rewrite forallb_forall in Hall.
  exact (Hall day (zrange_In 1 day 31 ltac:(lia))).
Qed.

(** What [noon_midnight_exact] checks. *)
Lemma noon_midnight_exact_true (year month day : Z) :
  noon_midnight_exact year month day = true ->
  exists fn jd12 jd0 : float,
    Binary64.float_of_int (day_count year month day - 1524) = Some fn
    /\ Binary64.ymdhms_to_jd year month day 12 0 0%float = Some jd12
    /\ Binary64.ymdhms_to_jd year month day 0 0 0%float = Some jd0
    /\ (jd12 =? fn)%float = true
    /\ (jd0 =? fn - 0.5)%float = true.
Proof.
  unfold noon_midnight_exact.
  generalize (Binary64.float_of_int (day_count year month day - 1524)).
  generalize (Binary64.ymdhms_to_jd year month day 12 0 0%float).
  generalize (Binary64.ymdhms_to_jd year month day 0 0 0%float).
  intros [jd0|] [jd12|] [fn|] H; try discriminate H.
  apply andb_prop in H. destruct H as [Ha Hb].
  exists fn, jd12, jd0. repeat split; assumption.
Qed.

Lemma years_exact_1970_2050 : years_exact 1970 81 = true.
Proof. vm_cast_no_check (eq_refl true). Qed.

(** The exact values at noon and at midnight. *)
Lemma ymdhms_to_jd_noon_midnight (year month day : Z) :
  ymdhms_to_jd year month day 12 0 0
  = IZR (day_count year month day - 1524)
  /\ ymdhms_to_jd year month day 0 0 0
     = IZR (day_count year month day - 1524) - 0.5.
Proof.
  rewrite !CalendarFacts.ymdhms_to_jd_quotients, minus_IZR. split; lra.
Qed.

(** X17. For every date from 1970 to 2050 (month 1..12, day 1..31) the
    binary64 run has no rounding error at 12:00:00 and at 00:00:00: in exact
    arithmetic the results are [n] and [n - 0.5] for the integer
    [n = day_count - 1524], and the floats that the run returns compare
    equal to [float(n)] and to [float(n) - 0.5]. *)
Theorem binary64_noon_midnight_exact (year month day : Z) :
  (1970 <= year <= 2050)%Z -> (1 <= month <= 12)%Z -> (1 <= day <= 31)%Z ->
  (ymdhms_to_jd year month day 12 0 0
   = IZR (day_count year month day - 1524)
   /\ ymdhms_to_jd year month day 0 0 0
      = IZR (day_count year month day - 1524) - 0.5)
  /\ exists fn jd12 jd0 : float,
       Binary64.float_of_int (day_count year month day - 1524) = Some fn
       /\ Binary64.ymdhms_to_jd year month day 12 0 0%float = Some jd12
       /\ Binary64.ymdhms_to_jd year month day 0 0 0%float = Some jd0
       /\ (jd12 =? fn)%float = true
       /\ (jd0 =? fn - 0.5)%float = true.
Proof.
  intros Hy Hm Hd. split.
  - apply ymdhms_to_jd_noon_midnight.
  - apply noon_midnight_exact_true.
    apply (years_exact_date 1970 81); [exact years_exact_1970_2050|lia|lia|lia].
Qed.

Lemma binary64_noon_midnight_exact_witness :
  (1970 <= 2000 <= 2050)%Z /\ (1 <= 1 <= 12)%Z /\ (1 <= 1 <= 31)%Z
  /\ (ymdhms_to_jd 2000 1 1 12 0 0 = IZR (day_count 2000 1 1 - 1524)
      /\ ymdhms_to_jd 2000 1 1 0 0 0
         = IZR (day_count 2000 1 1 - 1524) - 0.5)
  /\ exists fn jd12 jd0 : float,
       Binary64.float_of_int (day_count 2000 1 1 - 1524) = Some fn
       /\ Binary64.ymdhms_to_jd 2000 1 1 12 0 0%float = Some jd12
       /\ Binary64.ymdhms_to_jd 2000 1 1 0 0 0%float = Some jd0
       /\ (jd12 =? fn)%float = true
       /\ (jd0 =? fn - 0.5)%float = true.
Proof.
  split; [lia|]. split; [lia|]. split; [lia|].
  apply (binary64_noon_midnight_exact 2000 1 1); lia.
Defined.

End Binary64CheckFacts.

(** ** The binary64 run: the integer day sum *)

Module Float64Facts.
Import Calendar PrimFloat.

(** [Binary64.ymdhms_to_jd] is [day_sum] followed by [jd_of_sum]. *)
Lemma ymdhms_to_jd_split (year month day hour minute : Z) (second : float) :
  Binary64.ymdhms_to_jd year month day hour minute second
  = match Float64.day_sum year month day with
    | Some sum => Float64.jd_of_sum sum hour minute second
    | None => None
    end.
Proof.
  unfold Binary64.ymdhms_to_jd, Float64.day_sum, Float64.jd_of_sum.
  destruct (month <=? 2)%Z.
  - destruct (Binary64.truediv (year - 1) 100) as [q|]; [|reflexivity].
    destruct (Binary64.floor q) as [A|]; [|reflexivity].
    destruct (Binary64.truediv A 4) as [q4|]; [|reflexivity].
    destruct (Binary64.floor q4) as [A4|]; [|reflexivity].
    destruct (Binary64.float_of_int (year - 1 + 4716)) as [f|]; [|reflexivity].
    destruct (Binary64.floor _) as [C|]; [|reflexivity].
    destruct (Binary64.float_of_int (month + 12 + 1)) as [g|]; [|reflexivity].
    destruct (Binary64.floor _) as [D|]; reflexivity.
  - destruct (Binary64.truediv year 100) as [q|]; [|reflexivity].
    destruct (Binary64.floor q) as [A|]; [|reflexivity].
    destruct (Binary64.truediv A 4) as [q4|]; [|reflexivity].
    destruct (Binary64.floor q4) as [A4|]; [|reflexivity].
    destruct (Binary64.float_of_int (year + 4716)) as [f|]; [|reflexivity].
    destruct (Binary64.floor _) as [C|]; [|reflexivity].
    destruct (Binary64.float_of_int (month + 1)) as [g|]; [|reflexivity].
    destruct (Binary64.floor _) as [D|]; reflexivity.
Qed.

(** The day is a summand of [day_sum] and nothing else. *)
Lemma day_sum_next_day (year month day sum : Z) :
  Float64.day_sum year month day = Some sum ->
  Float64.day_sum year month (day + 1) = Some (sum + 1)%Z.
Proof.
  unfold Float64.day_sum.
  destruct (month <=? 2)%Z.
  - destruct (Binary64.truediv (year - 1) 100) as [q|]; [|discriminate].
    destruct (Binary64.floor q) as [A|]; [|discriminate].
    destruct (Binary64.truediv A 4) as [q4|]; [|discriminate].
    destruct (Binary64.floor q4) as [A4|]; [|discriminate].
    destruct (Binary64.float_of_int (year - 1 + 4716)) as [f|]; [|discriminate].
    destruct (Binary64.floor _) as [C|]; [|discriminate].
    destruct (Binary64.float_of_int (month + 12 + 1)) as [g|]; [|discriminate].
    destruct (Binary64.floor _) as [D|]; [|discriminate].
    intros H.
    assert (E : (C + D + day + (2 - A + A4))%Z = sum) by congruence.
    rewrite <- E. apply f_equal. lia.
  - destruct (Binary64.truediv year 100) as [q|]; [|discriminate].
    destruct (Binary64.floor q) as [A|]; [|discriminate].
    destruct (Binary64.truediv A 4) as [q4|]; [|discriminate].
    destruct (Binary64.floor q4) as [A4|]; [|discriminate].
    destruct (Binary64.float_of_int (year + 4716)) as [f|]; [|discriminate].
    destruct (Binary64.floor _) as [C|]; [|discriminate].
    destruct (Binary64.float_of_int (month + 1)) as [g|]; [|discriminate].
    destruct (Binary64.floor _) as [D|]; [|discriminate].
    intros H.
    assert (E : (C + D + day + (2 - A + A4))%Z = sum) by congruence.
    rewrite <- E. apply f_equal. lia.
Qed.

End Float64Facts.
